(** * setup_vector_search.py: index definitions and dimension analysis

    A shallow embedding of [src/backend/setup_vector_search.py].  The script
    builds three index definitions as nested dict literals, fetches one
    sample document from the [medical_embeddings] collection, and, when the
    sample stores its embedding as a string, overwrites [numDimensions] in
    the two vector index definitions with the length of the parsed value.

    What is modelled: the three dict literals, the [find_one] query with its
    [$exists: False] filter, the [if]/[try]/[except] block of lines 174-198
    with its in-place dict updates and its messages, and the returned dict.
    What is left out: the connection set-up, the banner text and the
    [json.dumps] dumps of the definitions, which are the same on every run. *)

From Stdlib Require Import ZArith QArith Ascii String List Bool Lia.
From stdpp Require Import base option list strings gmap.

Local Open Scope string_scope.
Local Open Scope list_scope.

(** ** Python values *)

(** The values the script handles: BSON / JSON data plus tuples.  Dicts keep
    their insertion order and have string keys (all that documents and index
    definitions use).  A float is kept as the exact rational its literal
    denotes; the script never computes with one, it only counts elements. *)
#[warnings="-register-all"]
Inductive pyval : Type :=
| PyNone
| PyBool (b : bool)
| PyInt (z : Z)
| PyFloat (q : Q)
| PyStr (s : string)
| PyList (l : list pyval)
| PyTuple (l : list pyval)
| PyDict (l : list (string * pyval)).

(** The exception classes that the modelled statements can raise; each one
    derives from [Exception], so [except Exception] catches all of them.
    [ValueError] and [SyntaxError] come from [ast.literal_eval], [TypeError]
    from [len] and from subscripting, [KeyError] and [IndexError] from
    subscripting. *)
Inductive exn : Type :=
| SyntaxError
| ValueError
| TypeError
| KeyError (k : pyval)
| IndexError.

(** A computation that returns or raises. *)
Definition except (A : Type) : Type := exn + A.

Definition raise {A} (e : exn) : except A := inl e.
Definition ok {A} (a : A) : except A := inr a.

#[export] Instance except_ret : MRet except := fun A (a : A) => ok a.

#[export] Instance except_bind : MBind except :=
  fun A B (k : A -> except B) (r : except A) =>
    match r with
    | inr a => k a
    | inl e => raise e
    end.

(** ** Dict and list primitives *)

Module Dict.

(** [k in d] and [d[k]] on the ordered entries of a dict. *)
Fixpoint get (k : string) (d : list (string * pyval)) : option pyval :=
  match d with
  | [] => None
  | (k', v) :: d' => if String.eqb k k' then Some v else get k d'
  end.

(** [d[k] = v]: an existing key keeps its position, a new key goes last. *)
Fixpoint set (k : string) (v : pyval) (d : list (string * pyval))
  : list (string * pyval) :=
  match d with
  | [] => [(k, v)]
  | (k', v') :: d' =>
      if String.eqb k k' then (k', v) :: d' else (k', v') :: set k v d'
  end.

Definition keys (d : list (string * pyval)) : list string := map fst d.

End Dict.

(** [o[k]] for a string key [k]. Only a dict accepts a string subscript. *)
Definition getitem_key (o : pyval) (k : string) : except pyval :=
  match o with
  | PyDict d =>
      match Dict.get k d with
      | Some v => ok v
      | None => raise (KeyError (PyStr k))
      end
  | _ => raise TypeError
  end.

(** [o[i]] for a non-negative integer literal [i]. *)
Definition getitem_idx (o : pyval) (i : nat) : except pyval :=
  match o with
  | PyList l | PyTuple l =>
      match l !! i with
      | Some v => ok v
      | None => raise IndexError
      end
  | PyStr s =>
      match String.get i s with
      | Some c => ok (PyStr (String c EmptyString))
      | None => raise IndexError
      end
  | PyDict _ => raise (KeyError (PyInt (Z.of_nat i)))
  | _ => raise TypeError
  end.

(** [o[k] = v] for a string key [k], giving the object after the store. *)
Definition setitem_key (o : pyval) (k : string) (v : pyval) : except pyval :=
  match o with
  | PyDict d => ok (PyDict (Dict.set k v d))
  | _ => raise TypeError
  end.

(** Objects are modelled as trees, so a store into an item of [o] that was
    reached through [o[i]] or [o[k]] is followed by putting the changed item
    back: [o] as seen after the item at [i], or at [k], has become [v]. *)
Definition with_idx (o : pyval) (i : nat) (v : pyval) : pyval :=
  match o with
  | PyList l => PyList (<[i := v]> l)
  | PyTuple l => PyTuple (<[i := v]> l)
  | _ => o
  end.

Definition with_key (o : pyval) (k : string) (v : pyval) : pyval :=
  match o with
  | PyDict d => PyDict (Dict.set k v d)
  | _ => o
  end.

(** [len(o)].  A string is taken to be ASCII, one character per byte. *)
Definition py_len (o : pyval) : except nat :=
  match o with
  | PyStr s => ok (String.length s)
  | PyList l | PyTuple l => ok (length l)
  | PyDict d => ok (length d)
  | PyNone | PyBool _ | PyInt _ | PyFloat _ => raise TypeError
  end.

(** [isinstance(o, str)]. *)
Definition is_str (o : pyval) : bool :=
  match o with
  | PyStr _ => true
  | _ => false
  end.

(** ** The index definitions (lines 32-130) *)

(** Lines 32-53. *)
Definition medical_embeddings_index : pyval :=
  PyDict
    [("name", PyStr "vector_index_medical");
     ("type", PyStr "vectorSearch");
     ("definition",
       PyDict
         [("fields",
            PyList
              [PyDict [("type", PyStr "vector");
                       ("path", PyStr "embedding_vector");
                       ("numDimensions", PyInt 384);
                       ("similarity", PyStr "cosine")];
               PyDict [("type", PyStr "filter");
                       ("path", PyStr "medical_specialty")];
               PyDict [("type", PyStr "filter");
                       ("path", PyStr "confidence_score")]])])].

(** Lines 65-90. *)
Definition godzilla_index : pyval :=
  PyDict
    [("name", PyStr "vector_index_godzilla");
     ("type", PyStr "vectorSearch");
     ("definition",
       PyDict
         [("fields",
            PyList
              [PyDict [("type", PyStr "vector");
                       ("path", PyStr "text_embedding");
                       ("numDimensions", PyInt 384);
                       ("similarity", PyStr "cosine")];
               PyDict [("type", PyStr "filter");
                       ("path", PyStr "medical_specialty")];
               PyDict [("type", PyStr "filter");
                       ("path", PyStr "clinical_relevance_score")];
               PyDict [("type", PyStr "filter");
                       ("path", PyStr "age_groups")]])])].

(** Lines 102-130. *)
Definition drug_search_index : pyval :=
  PyDict
    [("name", PyStr "drug_search_index");
     ("type", PyStr "search");
     ("definition",
       PyDict
         [("mappings",
            PyDict
              [("dynamic", PyBool false);
               ("fields",
                 PyDict
                   [("drug_name",
                      PyDict [("type", PyStr "string");
                              ("analyzer", PyStr "lucene.standard")]);
                    ("generic_name",
                      PyDict [("type", PyStr "string");
                              ("analyzer", PyStr "lucene.standard")]);
                    ("indication",
                      PyDict [("type", PyStr "string");
                              ("analyzer", PyStr "lucene.standard")]);
                    ("age_group", PyDict [("type", PyStr "string")]);
                    ("route", PyDict [("type", PyStr "string")])])])])].

(** ** The document store *)

(** A document is a dict with string keys; a collection is its documents in
    natural order; the database maps collection names to collections. *)
Abbreviation document := (gmap string pyval).
Abbreviation database := (gmap string (list (gmap string pyval))).

(** [db[name]]: a collection that was never written to is empty. *)
Definition collection (db : database) (name : string) : list document :=
  default [] (db !! name).

(** The filter [{field: {'$exists': False}}]: the field is absent. *)
Definition not_exists (field : string) (doc : document) : bool :=
  match doc !! field with
  | Some _ => false
  | None => true
  end.

(** [coll.find_one(filter)]: the first matching document, or [None]. *)
Fixpoint find_one (filter : document -> bool) (coll : list document)
  : option document :=
  match coll with
  | [] => None
  | doc :: rest => if filter doc then Some doc else find_one filter rest
  end.

(** Truth value of [sample] in [if sample and ...]: [None] and the empty
    dict are false. *)
Definition truthy (sample : option document) : bool :=
  match sample with
  | None => false
  | Some doc => negb (Nat.eqb (size doc) 0)
  end.

(** [key in doc]. *)
Definition contains (key : string) (doc : document) : bool :=
  match doc !! key with
  | Some _ => true
  | None => false
  end.

(** ** Statements with effects *)

(** The messages of lines 186-198 that carry information. *)
Inductive message : Type :=
| DimensionDetected (dimension : nat)   (* line 186 *)
| UpdateNumDimensions (dimension : nat) (* line 187 *)
| DefinitionsUpdated                    (* line 194 *)
| FormatNotRecognized                   (* line 196 *)
| CouldNotParse (e : exn).              (* line 198 *)

(** The objects that lines 174-198 can change: the two dicts bound to
    [medical_embeddings_index] and [godzilla_index], which are built from
    separate literals and share no part, and the console. *)
Record state : Type := State {
  st_medical : pyval;
  st_godzilla : pyval;
  st_out : list message
}.

(** A statement runs from a state to a state and either completes or
    raises; what it did before raising stays done. *)
Definition M (A : Type) : Type := state -> except A * state.

#[export] Instance M_ret : MRet M := fun A (a : A) st => (ok a, st).

#[export] Instance M_bind : MBind M := fun A B (k : A -> M B) (m : M A) st =>
  match m st with
  | (inr a, st') => k a st'
  | (inl e, st') => (inl e, st')
  end.

(** Evaluate an expression that may raise. *)
Definition eval {A} (r : except A) : M A := fun st => (r, st).

Definition print (msg : message) : M unit :=
  fun st => (ok tt, State (st_medical st) (st_godzilla st) (st_out st ++ [msg])).

(** [try: body except Exception as e: handler(e)]. *)
Definition try_except (body : M unit) (handler : exn -> M unit) : M unit :=
  fun st =>
    match body st with
    | (inl e, st') => handler e st'
    | (inr tt, st') => (ok tt, st')
    end.

(** [index['definition']['fields'][0]['numDimensions'] = dimension] as a
    function of the dict [index]: three loads, the store into the first
    field, and [index] as seen afterwards. *)
Definition set_num_dimensions (index : pyval) (dimension : nat) : except pyval :=
  definition ← getitem_key index "definition";
  fields ← getitem_key definition "fields";
  field0 ← getitem_idx fields 0;
  field0' ← setitem_key field0 "numDimensions" (PyInt (Z.of_nat dimension));
  mret (with_key index "definition"
          (with_key definition "fields" (with_idx fields 0 field0'))).

(** The expression [index['definition']['fields'][0]['numDimensions']]. *)
Definition num_dimensions (index : pyval) : except pyval :=
  definition ← getitem_key index "definition";
  fields ← getitem_key definition "fields";
  field0 ← getitem_idx fields 0;
  getitem_key field0 "numDimensions".

(** Line 191. *)
Definition update_medical (dimension : nat) : M unit :=
  fun st =>
    match set_num_dimensions (st_medical st) dimension with
    | inl e => (inl e, st)
    | inr m => (ok tt, State m (st_godzilla st) (st_out st))
    end.

(** Line 192. *)
Definition update_godzilla (dimension : nat) : M unit :=
  fun st =>
    match set_num_dimensions (st_godzilla st) dimension with
    | inl e => (inl e, st)
    | inr g => (ok tt, State (st_medical st) g (st_out st))
    end.

(** What a run shows, and what it returns unless it dies of an exception. *)
Record outcome : Type := Outcome {
  printed : list message;
  returned : except pyval
}.

(** Line 175: the one query of the script. *)
Definition fetch_sample (db : database) : option document :=
  find_one (not_exists "_metadata") (collection db "medical_embeddings").

(** The state in which line 174 is reached. *)
Definition initial_state : state :=
  State medical_embeddings_index godzilla_index [].

(** Lines 213-217. *)
Definition artifact (st : state) : pyval :=
  PyDict [("medical_embeddings_index", st_medical st);
          ("godzilla_index", st_godzilla st);
          ("drug_search_index", drug_search_index)].

Section Analysis.

(** [ast.literal_eval] on a string: the value of the literal, or the
    exception raised.  It belongs to the Python library, so the script is
    modelled over any such function. *)
Variable literal_eval : string -> except pyval.

(** Lines 183-196, the body of the [try]. *)
Definition try_body (embedding_str : pyval) : M unit :=
  match embedding_str with
  | PyStr s =>
      embedding_list ← eval (literal_eval s);
      dimension ← eval (py_len embedding_list);
      print (DimensionDetected dimension);;
      print (UpdateNumDimensions dimension);;
      update_medical dimension;;
      update_godzilla dimension;;
      print DefinitionsUpdated
  | _ => print FormatNotRecognized
  end.

(** Lines 177-198. *)
Definition analyze (sample : option document) : M unit :=
  match sample with
  | Some doc =>
      if truthy sample && contains "embedding" doc then
        embedding_str ← eval (match doc !! "embedding" with
                              | Some v => ok v
                              | None => raise (KeyError (PyStr "embedding"))
                              end);
        try_except (try_body embedding_str)
                   (fun e => print (CouldNotParse e))
      else mret tt
  | None => mret tt
  end.

(** The function, on the contents of the database it connects to. *)
Definition setup_vector_search_indexes (db : database) : outcome :=
  let sample := fetch_sample db in
  match analyze sample initial_state with
  | (inr tt, st) => Outcome (st_out st) (ok (artifact st))
  | (inl e, st) => Outcome (st_out st) (raise e)
  end.

End Analysis.

(** ** A reference [literal_eval] for closed examples *)

(** An executable [ast.literal_eval] for the part of the literal syntax the
    examples need: decimal integers and decimal-point floats with an
    optional sign, quoted strings without backslashes, [None], [True],
    [False], and list and tuple displays of these, separated by spaces or
    tabs.  On this fragment it returns what CPython returns; a name or a
    signed non-number is the [ValueError] ("malformed node") of CPython.
    Outside the fragment (dict and set displays, bytes, exponents, adjacent
    strings, escapes, ...) it raises [SyntaxError], and the theorems that
    range over all strings do not use it. *)
Module Literal.

Inductive token : Type :=
| LBRACK | RBRACK | LPAR | RPAR | COMMA | PLUS | MINUS
| INT (z : Z)
| FLOAT (q : Q)
| STRING (s : string)
| NAME (s : string).

Definition code (c : ascii) : N := N_of_ascii c.

Definition is_digit (c : ascii) : bool :=
  (48 <=? code c)%N && (code c <=? 57)%N.

Definition is_name_start (c : ascii) : bool :=
  ((65 <=? code c)%N && (code c <=? 90)%N)
  || ((97 <=? code c)%N && (code c <=? 122)%N)
  || (code c =? 95)%N.

Definition is_name_char (c : ascii) : bool := is_name_start c || is_digit c.

Definition is_space (c : ascii) : bool :=
  (code c =? 32)%N || (code c =? 9)%N.

Definition is_quote (c : ascii) : bool :=
  (code c =? 39)%N || (code c =? 34)%N.

(** The longest prefix whose characters satisfy [p], and the rest. *)
Fixpoint span (p : ascii -> bool) (cs : list ascii)
  : list ascii * list ascii :=
  match cs with
  | c :: cs' =>
      if p c then let (a, b) := span p cs' in (c :: a, b) else ([], cs)
  | [] => ([], [])
  end.

(** The number a run of decimal digits denotes. *)
Definition digits_value (ds : list ascii) : Z :=
  fold_left (fun acc c => 10 * acc + (Z.of_N (code c) - 48))%Z ds 0%Z.

Definition all_zero (ds : list ascii) : bool :=
  forallb (fun c => (code c =? 48)%N) ds.

(** An integer literal may not start with [0] unless it is zero. *)
Definition int_token (ds : list ascii) : option token :=
  match ds with
  | c :: _ :: _ =>
      if (code c =? 48)%N && negb (all_zero ds) then None
      else Some (INT (digits_value ds))
  | _ => Some (INT (digits_value ds))
  end.

Definition float_token (whole frac : list ascii) : token :=
  FLOAT (Qmake (digits_value (whole ++ frac))
               (Z.to_pos (10 ^ Z.of_nat (length frac)))).

(** A number may not run into a name character. *)
Definition ends_number (cs : list ascii) : bool :=
  match cs with
  | c :: _ => negb (is_name_char c)
  | [] => true
  end.

(** The body of a string up to the closing quote [q]. *)
Fixpoint string_body (q : ascii) (cs : list ascii)
  : option (list ascii * list ascii) :=
  match cs with
  | [] => None
  | c :: cs' =>
      if (code c =? code q)%N then Some ([], cs')
      else if (code c =? 92)%N || (code c =? 10)%N || (code c =? 13)%N
           then None
      else match string_body q cs' with
           | Some (body, rest) => Some (c :: body, rest)
           | None => None
           end
  end.

(** One token from the front of [cs], with what follows it. *)
Definition next_token (c : ascii) (cs : list ascii)
  : option (token * list ascii) :=
  if (code c =? 91)%N then Some (LBRACK, cs)
  else if (code c =? 93)%N then Some (RBRACK, cs)
  else if (code c =? 40)%N then Some (LPAR, cs)
  else if (code c =? 41)%N then Some (RPAR, cs)
  else if (code c =? 44)%N then Some (COMMA, cs)
  else if (code c =? 43)%N then Some (PLUS, cs)
  else if (code c =? 45)%N then Some (MINUS, cs)
  else if is_digit c then
    let (whole, r) := span is_digit (c :: cs) in
    match r with
    | d :: r' =>
        if (code d =? 46)%N then
          let (frac, r'') := span is_digit r' in
          if ends_number r'' then Some (float_token whole frac, r'')
          else None
        else if ends_number r then
          match int_token whole with
          | Some t => Some (t, r)
          | None => None
          end
        else None
    | [] =>
        match int_token whole with
        | Some t => Some (t, r)
        | None => None
        end
    end
  else if (code c =? 46)%N then
    let (frac, r) := span is_digit cs in
    match frac with
    | [] => None
    | _ => if ends_number r then Some (float_token [] frac, r) else None
    end
  else if is_quote c then
    match string_body c cs with
    | Some (body, r) => Some (STRING (string_of_list_ascii body), r)
    | None => None
    end
  else if is_name_start c then
    let (name, r) := span is_name_char (c :: cs) in
    Some (NAME (string_of_list_ascii name), r)
  else None.

(** The tokens of [cs]; [None] is a lexical error. *)
Fixpoint tokenize (fuel : nat) (cs : list ascii) : option (list token) :=
  match fuel with
  | O => None
  | S fuel' =>
      match cs with
      | [] => Some []
      | c :: cs' =>
          if is_space c then tokenize fuel' cs'
          else match next_token c cs' with
               | Some (t, r) =>
                   match tokenize fuel' r with
                   | Some ts => Some (t :: ts)
                   | None => None
                   end
               | None => None
               end
      end
  end.

Definition is_rbrack (t : token) : bool :=
  match t with RBRACK => true | _ => false end.

Definition is_rpar (t : token) : bool :=
  match t with RPAR => true | _ => false end.

Definition is_comma (t : token) : bool :=
  match t with COMMA => true | _ => false end.

(** One expression, and the elements of a display up to its closing
    bracket (a trailing comma is allowed, a leading one is not). *)
Fixpoint parse (fuel : nat) (ts : list token) : except (pyval * list token) :=
  match fuel with
  | O => raise SyntaxError
  | S fuel' =>
      match ts with
      | [] => raise SyntaxError
      | INT z :: r => ok (PyInt z, r)
      | FLOAT q :: r => ok (PyFloat q, r)
      | STRING s :: r => ok (PyStr s, r)
      | NAME n :: r =>
          if String.eqb n "None" then ok (PyNone, r)
          else if String.eqb n "True" then ok (PyBool true, r)
          else if String.eqb n "False" then ok (PyBool false, r)
          else raise ValueError
      | MINUS :: INT z :: r => ok (PyInt (- z), r)
      | MINUS :: FLOAT q :: r => ok (PyFloat (- q), r)
      | PLUS :: INT z :: r => ok (PyInt z, r)
      | PLUS :: FLOAT q :: r => ok (PyFloat q, r)
      | MINUS :: [] | PLUS :: [] => raise SyntaxError
      | MINUS :: _ | PLUS :: _ => raise ValueError
      | LBRACK :: r =>
          match parse_items fuel' is_rbrack r with
          | inr (vs, r') => ok (PyList vs, r')
          | inl e => raise e
          end
      | LPAR :: RPAR :: r => ok (PyTuple [], r)
      | LPAR :: r =>
          match parse fuel' r with
          | inr (v, RPAR :: r') => ok (v, r')
          | inr (v, COMMA :: r') =>
              match parse_items fuel' is_rpar r' with
              | inr (vs, r'') => ok (PyTuple (v :: vs), r'')
              | inl e => raise e
              end
          | inr _ => raise SyntaxError
          | inl e => raise e
          end
      | RBRACK :: _ | RPAR :: _ | COMMA :: _ => raise SyntaxError
      end
  end
with parse_items (fuel : nat) (close : token -> bool) (ts : list token)
  : except (list pyval * list token) :=
  match fuel with
  | O => raise SyntaxError
  | S fuel' =>
      match ts with
      | [] => raise SyntaxError
      | t :: r =>
          if close t then ok ([], r)
          else
            match parse fuel' ts with
            | inr (v, t' :: r') =>
                if close t' then ok ([v], r')
                else if is_comma t' then
                  match parse_items fuel' close r' with
                  | inr (vs, r'') => ok (v :: vs, r'')
                  | inl e => raise e
                  end
                else raise SyntaxError
            | inr (_, []) => raise SyntaxError
            | inl e => raise e
            end
      end
  end.

(** [ast.literal_eval(s)] on the fragment. *)
Definition eval (s : string) : except pyval :=
  let cs := list_ascii_of_string s in
  match tokenize (S (length cs)) cs with
  | None => raise SyntaxError
  | Some ts =>
      match parse (S (2 * length ts)) ts with
      | inr (v, []) => ok v
      | inr (_, _ :: _) => raise SyntaxError
      | inl e => raise e
      end
  end.

End Literal.


(** ** Reading the result *)

(** [result[key]] of a run that returned. *)
Definition entry (o : outcome) (key : string) : except pyval :=
  art ← returned o; getitem_key art key.

(** [result[key]['definition']['fields'][0]['numDimensions']]. *)
Definition final_dimension (o : outcome) (key : string) : except pyval :=
  index ← entry o key; num_dimensions index.

(** The dict returned when lines 191-192 never ran. *)
Definition baseline : pyval :=
  PyDict [("medical_embeddings_index", medical_embeddings_index);
          ("godzilla_index", godzilla_index);
          ("drug_search_index", drug_search_index)].

(** The dimension lines 177-185 compute from a sample, if they get that far:
    the sample is a non-empty document with an [embedding] key holding a
    string, [literal_eval] returns, and the value has a length. *)
Definition detected_dimension (literal_eval : string -> except pyval)
    (sample : option document) : option nat :=
  match sample with
  | Some doc =>
      match doc !! "embedding" with
      | Some (PyStr s) =>
          match literal_eval s ≫= py_len with
          | inr dimension => Some dimension
          | inl _ => None
          end
      | _ => None
      end
  | None => None
  end.

(** ** The shapes of the definitions, as the specification names them *)

(** A VectorField with the cosine metric, and a FilterField. *)
Definition vector_field (path : string) (numDimensions : Z) : pyval :=
  PyDict [("type", PyStr "vector");
          ("path", PyStr path);
          ("numDimensions", PyInt numDimensions);
          ("similarity", PyStr "cosine")].

Definition filter_field (path : string) : pyval :=
  PyDict [("type", PyStr "filter"); ("path", PyStr path)].

(** A vector index: one VectorField, then one FilterField per filter path. *)
Definition vector_index (name path : string) (filters : list string)
    (numDimensions : Z) : pyval :=
  PyDict
    [("name", PyStr name);
     ("type", PyStr "vectorSearch");
     ("definition",
       PyDict [("fields",
                 PyList (vector_field path numDimensions
                           :: map filter_field filters))])].

(** A TextField: a string field, with an analyzer only when one is given. *)
Definition text_field (analyzer : option string) : pyval :=
  match analyzer with
  | Some a => PyDict [("type", PyStr "string"); ("analyzer", PyStr a)]
  | None => PyDict [("type", PyStr "string")]
  end.

(** A text index: dynamic mapping off, one TextField per entry, in order. *)
Definition text_index (name : string)
    (analyzers : list (string * option string)) : pyval :=
  PyDict
    [("name", PyStr name);
     ("type", PyStr "search");
     ("definition",
       PyDict
         [("mappings",
            PyDict
              [("dynamic", PyBool false);
               ("fields",
                 PyDict (map (fun ka => (fst ka, text_field (snd ka)))
                             analyzers))])])].

(** The [fields] list of a vector index and the kinds of its entries. *)
Definition fields_of (index : pyval) : except pyval :=
  definition ← getitem_key index "definition";
  getitem_key definition "fields".

Definition has_type (kind : string) (field : pyval) : bool :=
  match getitem_key field "type" with
  | inr (PyStr t) => String.eqb t kind
  | _ => false
  end.

Definition is_cosine (field : pyval) : bool :=
  match getitem_key field "similarity" with
  | inr (PyStr m) => String.eqb m "cosine"
  | _ => false
  end.

Definition count_fields (p : pyval -> bool) (fields : except pyval) : nat :=
  match fields with
  | inr (PyList l) => length (filter (fun f => p f = true) l)
  | _ => 0
  end.

(** The two vector indexes of the result with their filter paths. *)
Definition medical_filters : list string :=
  ["medical_specialty"; "confidence_score"].

Definition godzilla_filters : list string :=
  ["medical_specialty"; "clinical_relevance_score"; "age_groups"].

(** The field-to-analyzer table behind [drug_search_index]. *)
Definition drug_analyzers : list (string * option string) :=
  [("drug_name", Some "lucene.standard");
   ("generic_name", Some "lucene.standard");
   ("indication", Some "lucene.standard");
   ("age_group", None);
   ("route", None)].

(** The returned dict when both vector indexes carry dimension [n]. *)
Definition result_with (n : Z) : pyval :=
  PyDict
    [("medical_embeddings_index",
       vector_index "vector_index_medical" "embedding_vector"
                    medical_filters n);
     ("godzilla_index",
       vector_index "vector_index_godzilla" "text_embedding"
                    godzilla_filters n);
     ("drug_search_index", drug_search_index)].

(** ** Statements about the script, and the inputs that decide them *)

(** The vector-indexed collections: the key of each vector index in the
    result and the collection it is announced for (lines 58 and 95). *)
Definition vector_indexes : list (string * string) :=
  [("medical_embeddings_index", "medical_embeddings");
   ("godzilla_index", "godzilla_medical_dataset")].

(** The query of line 175 put to any collection. *)
Definition sample_of (db : database) (name : string) : option document :=
  find_one (not_exists "_metadata") (collection db name).

(** The dimension an index ends with: the detected one or the 384 of the
    literals. *)
Definition placeholder_or (d : option nat) : Z :=
  match d with
  | Some n => Z.of_nat n
  | None => 384
  end.

(** The keys of the returned dict, in order. *)
Definition keys_of (r : except pyval) : list string :=
  match r with
  | inr (PyDict d) => Dict.keys d
  | _ => []
  end.

(** [path] of the first field of a vector index. *)
Definition vector_path (index : pyval) : except pyval :=
  fields ← fields_of index;
  field0 ← getitem_idx fields 0;
  getitem_key field0 "path".

(** A list or tuple of numbers. *)
Definition is_number (v : pyval) : bool :=
  match v with
  | PyInt _ | PyFloat _ => true
  | _ => false
  end.

Definition number_sequence (v : pyval) : bool :=
  match v with
  | PyList l | PyTuple l => forallb is_number l
  | _ => false
  end.

Section Statements.

Variable literal_eval : string -> except pyval.

Local Abbreviation setup := (setup_vector_search_indexes literal_eval).
Local Abbreviation detected := (detected_dimension literal_eval).

(** Every vector index ends with the dimension of a sample of the
    collection it targets. *)
Definition each_index_own_sample : Prop :=
  forall db : database,
    Forall (fun kc =>
              final_dimension (setup db) (fst kc)
              = ok (PyInt (placeholder_or (detected (sample_of db (snd kc))))))
           vector_indexes.

(** A string that does not evaluate to a sequence of numbers is reported
    as a failure and leaves 384 in place. *)
Definition non_numeric_kept_out : Prop :=
  forall (db : database) (doc : document) (s : string),
    fetch_sample db = Some doc ->
    doc !! "embedding" = Some (PyStr s) ->
    (forall v, literal_eval s = ok v -> number_sequence v = false) ->
    (exists e, printed (setup db) = [CouldNotParse e])
    /\ final_dimension (setup db) "medical_embeddings_index" = ok (PyInt 384)
    /\ final_dimension (setup db) "godzilla_index" = ok (PyInt 384).

(** A sample without the key makes the run fail or report a failure. *)
Definition missing_field_reported : Prop :=
  forall (db : database) (doc : document),
    fetch_sample db = Some doc ->
    doc !! "embedding" = None ->
    (exists e, returned (setup db) = raise e)
    \/ (exists e, In (CouldNotParse e) (printed (setup db))).

(** A native sequence gives its length to the vector indexes. *)
Definition native_sequence_applied : Prop :=
  forall (db : database) (doc : document) (l : list pyval),
    fetch_sample db = Some doc ->
    doc !! "embedding" = Some (PyList l) ->
    final_dimension (setup db) "medical_embeddings_index"
    = ok (PyInt (Z.of_nat (length l)))
    /\ final_dimension (setup db) "godzilla_index"
       = ok (PyInt (Z.of_nat (length l))).

(** A value of length zero is reported as a failure and never stored. *)
Definition empty_embedding_rejected : Prop :=
  forall (db : database) (doc : document) (s : string) (v : pyval),
    fetch_sample db = Some doc ->
    doc !! "embedding" = Some (PyStr s) ->
    literal_eval s = ok v ->
    py_len v = ok 0%nat ->
    (exists e, printed (setup db) = [CouldNotParse e])
    /\ final_dimension (setup db) "medical_embeddings_index" <> ok (PyInt 0)
    /\ final_dimension (setup db) "godzilla_index" <> ok (PyInt 0).

(** The result has the three keys, and a result whose 384 was never
    checked against data can be told from one whose 384 was detected. *)
Definition placeholder_observable : Prop :=
  (forall db : database,
      keys_of (returned (setup db))
      = ["medical_embeddings_index"; "godzilla_index"; "drug_search_index"])
  /\ (forall db1 db2 : database,
        detected (fetch_sample db1) = None ->
        detected (fetch_sample db2) = Some 384%nat ->
        returned (setup db1) <> returned (setup db2)).

End Statements.

(** A document with an [_id] and the given [embedding]. *)
Definition embedding_doc (v : pyval) : document :=
  <["embedding" := v]> {["_id" := PyInt 1]}.

(** A database whose [medical_embeddings] collection holds [docs]. *)
Definition medical_db (docs : list document) : database :=
  {["medical_embeddings" := docs]}.

(** Three-dimensional vectors in one collection, two-dimensional ones in
    the other. *)
Definition two_collections_db : database :=
  <["godzilla_medical_dataset" := [embedding_doc (PyStr "[0.5, 0.5]")]]>
    (medical_db [embedding_doc (PyStr "[0.1, 0.2, 0.3]")]).

(** A sample that keeps its vector under the path of the index. *)
Definition declared_path_doc : document :=
  <["embedding_vector" := PyStr "[0.1, 0.2, 0.3]"]> {["_id" := PyInt 1]}.

(** A migration record followed by an embedding record. *)
Definition marker_doc : document :=
  <["_metadata" := PyDict []]> (embedding_doc (PyStr "[1, 2]")).

(** The text of a list of [n] zeros. *)
Definition zeros_literal (n : nat) : string :=
  "[" ++ String.concat ", " (replicate n "0") ++ "]".

(** ** The script as a program (lines 220-228) *)

(** What the console shows, beyond fixed text: an object handed to
    [json.dumps] and printed (lines 61, 98 and 138), a message of the
    analysis, and the two lines of the [--create-indexes] branch. *)
Inductive console : Type :=
| Json (v : pyval)
| Said (msg : message)
| NotImplemented      (* line 224 *)
| CreateManually.     (* line 225 *)

(** The console of one call of the function: each definition is dumped
    right after it is built, and the analysis comes last. *)
Definition console_of (literal_eval : string -> except pyval)
    (db : database) : list console :=
  [Json medical_embeddings_index; Json godzilla_index; Json drug_search_index]
  ++ map Said (printed (setup_vector_search_indexes literal_eval db)).

(** ['--create-indexes' in sys.argv]. *)
Definition create_indexes_flag (argv : list string) : bool :=
  existsb (String.eqb "--create-indexes") argv.

(** Lines 220-228: the flag is answered with two lines, then the function
    is called and what it returns is dropped. *)
Definition main (literal_eval : string -> except pyval)
    (argv : list string) (db : database) : list console :=
  (if create_indexes_flag argv then [NotImplemented; CreateManually] else [])
  ++ console_of literal_eval db.

(** The objects printed as JSON. *)
Definition dumped (out : list console) : list pyval :=
  omap (fun c => match c with Json v => Some v | _ => None end) out.

(** The messages of the analysis on the console. *)
Definition said (out : list console) : list message :=
  omap (fun c => match c with Said m => Some m | _ => None end) out.

(** The lines of the [--create-indexes] branch. *)
Definition is_warning (c : console) : bool :=
  match c with
  | NotImplemented | CreateManually => true
  | _ => false
  end.

(** A record that carries the bookkeeping marker. *)
Definition marked (doc : document) : Prop := is_Some (doc !! "_metadata").

(** A database whose [medical_embeddings] collection starts with a marked
    record, then holds a two-element and a three-element embedding. *)
Definition mixed_db : database :=
  medical_db [marker_doc;
              embedding_doc (PyStr "[1, 2]");
              embedding_doc (PyStr "[1, 2, 3]")].

(** A vector index whose first field is a filter field. *)
Definition filter_first_index : pyval :=
  PyDict
    [("name", PyStr "vector_index_medical");
     ("type", PyStr "vectorSearch");
     ("definition",
       PyDict [("fields",
                 PyList [filter_field "medical_specialty";
                         vector_field "embedding_vector" 384])])].

(** ** Properties *)

(** *** Dicts and the update of [numDimensions] *)

Lemma Dict_get_set (k : string) (v : pyval) (d : list (string * pyval)) :
  Dict.get k (Dict.set k v d) = Some v.
Proof.
  induction d as [|[k' v'] d IH]; simpl.
  - by rewrite String.eqb_refl.
  - destruct (String.eqb k k') eqn:E; simpl; rewrite E; [done | exact IH].
Qed.

Lemma Dict_set_set (k : string) (v v' : pyval) (d : list (string * pyval)) :
  Dict.set k v (Dict.set k v' d) = Dict.set k v d.
Proof.
  induction d as [|[k' w] d IH]; simpl.
  - by rewrite String.eqb_refl.
  - destruct (String.eqb k k') eqn:E; simpl; rewrite E; [done | by rewrite IH].
Qed.

(** Reading back the position that was just replaced. *)
Lemma getitem_with_idx (fields v w : pyval) (d0 : list (string * pyval)) :
  getitem_idx fields 0 = ok (PyDict d0) ->
  getitem_idx (with_idx fields 0 v) 0 = ok v
  /\ with_idx (with_idx fields 0 w) 0 v = with_idx fields 0 v.
Proof.
  destruct fields as [| | | |str |l |l |?]; simpl; try discriminate.
  - destruct (String.get 0 str); discriminate.
  - destruct l as [|x l]; [discriminate |]. by split.
  - destruct l as [|x l]; [discriminate |]. by split.
Qed.

(** A successful update has exactly this form. *)
Lemma set_num_dimensions_inv (index index' : pyval) (n : nat) :
  set_num_dimensions index n = ok index' ->
  exists d dd fields d0,
    index = PyDict d /\
    Dict.get "definition" d = Some (PyDict dd) /\
    Dict.get "fields" dd = Some fields /\
    getitem_idx fields 0 = ok (PyDict d0) /\
    index' =
      PyDict
        (Dict.set "definition"
           (PyDict
              (Dict.set "fields"
                 (with_idx fields 0
                    (PyDict (Dict.set "numDimensions"
                               (PyInt (Z.of_nat n)) d0)))
                 dd))
           d).
Proof.
  unfold set_num_dimensions, mbind, except_bind.
  destruct index as [| | | | | |? |d]; simpl; try discriminate.
  destruct (Dict.get "definition" d) as [def|] eqn:Hdef; simpl;
    [|discriminate].
  destruct def as [| | | | | |? |dd]; simpl; try discriminate.
  destruct (Dict.get "fields" dd) as [fields|] eqn:Hfields; simpl;
    [|discriminate].
  destruct (getitem_idx fields 0) as [e|f0] eqn:Hf0; simpl; [discriminate |].
  destruct f0 as [| | | | | |? |d0]; simpl; try discriminate.
  intros [= <-]. exists d, dd, fields, d0. by repeat split.
Qed.

(** Storing the same dimension a second time changes nothing. *)
Lemma set_num_dimensions_again (index index' : pyval) (n : nat) :
  set_num_dimensions index n = ok index' ->
  set_num_dimensions index' n = ok index'.
Proof.
  intros H. apply set_num_dimensions_inv in H
    as (d & dd & fields & d0 & -> & Hd & Hdd & Hf & ->).
  unfold set_num_dimensions, mbind, except_bind. simpl.
  rewrite Dict_get_set. simpl. rewrite Dict_get_set. simpl.
  set (f1 := PyDict (Dict.set "numDimensions" (PyInt (Z.of_nat n)) d0)).
  destruct (getitem_with_idx fields f1 f1 d0 Hf) as [-> Hw].
  subst f1. simpl. unfold mret, except_ret, ok.
  by rewrite !Dict_set_set, Hw.
Qed.

(** After a successful update the stored dimension reads back. *)
Lemma num_dimensions_set (index index' : pyval) (n : nat) :
  set_num_dimensions index n = ok index' ->
  num_dimensions index' = ok (PyInt (Z.of_nat n)).
Proof.
  intros H. apply set_num_dimensions_inv in H
    as (d & dd & fields & d0 & -> & Hd & Hdd & Hf & ->).
  unfold num_dimensions, mbind, except_bind. simpl.
  rewrite Dict_get_set. simpl. rewrite Dict_get_set. simpl.
  set (f1 := PyDict (Dict.set "numDimensions" (PyInt (Z.of_nat n)) d0)).
  destruct (getitem_with_idx fields f1 f1 d0 Hf) as [-> _].
  subst f1. simpl. by rewrite Dict_get_set.
Qed.

(** On a vector index the update succeeds and only changes the dimension. *)
Lemma set_num_dimensions_vector_index
    (name path : string) (filters : list string) (z : Z) (n : nat) :
  set_num_dimensions (vector_index name path filters z) n
  = ok (vector_index name path filters (Z.of_nat n)).
Proof. reflexivity. Qed.

Lemma medical_is_vector_index :
  medical_embeddings_index
  = vector_index "vector_index_medical" "embedding_vector" medical_filters 384.
Proof. reflexivity. Qed.

Lemma godzilla_is_vector_index :
  godzilla_index
  = vector_index "vector_index_godzilla" "text_embedding" godzilla_filters 384.
Proof. reflexivity. Qed.

Lemma baseline_is_result_with : baseline = result_with 384.
Proof. reflexivity. Qed.

(** *** The runs of the script, case by case *)

Section Runs.

Variable literal_eval : string -> except pyval.

Local Abbreviation analyze := (analyze literal_eval).
Local Abbreviation setup := (setup_vector_search_indexes literal_eval).

Lemma truthy_lookup (doc : document) (k : string) (v : pyval) :
  doc !! k = Some v -> truthy (Some doc) = true.
Proof.
  intros H. unfold truthy.
  destruct (Nat.eqb_spec (size doc) 0) as [E|]; [|done].
  apply map_size_empty_iff in E. subst doc. by rewrite lookup_empty in H.
Qed.

(** No sample, or a sample without the key: nothing runs. *)
Lemma analyze_none (st : state) : analyze None st = (ok tt, st).
Proof. reflexivity. Qed.

Lemma analyze_no_key (doc : document) (st : state) :
  doc !! "embedding" = None -> analyze (Some doc) st = (ok tt, st).
Proof.
  intros H. unfold analyze, contains. rewrite H.
  by rewrite andb_false_r.
Qed.

(** A sample with the key: the [try] statement runs on its value. *)
Lemma analyze_key (doc : document) (v : pyval) (st : state) :
  doc !! "embedding" = Some v ->
  analyze (Some doc) st
  = try_except (try_body literal_eval v)
               (fun e => print (CouldNotParse e)) st.
Proof.
  intros H. unfold analyze, contains.
  rewrite (truthy_lookup doc _ v H), H. reflexivity.
Qed.

Lemma try_not_str (v : pyval) (st : state) :
  is_str v = false ->
  try_except (try_body literal_eval v) (fun e => print (CouldNotParse e)) st
  = (ok tt, State (st_medical st) (st_godzilla st)
                  (st_out st ++ [FormatNotRecognized])).
Proof. destruct v; try discriminate; reflexivity. Qed.

Lemma try_raises (s : string) (e : exn) (st : state) :
  literal_eval s ≫= py_len = raise e ->
  try_except (try_body literal_eval (PyStr s))
             (fun e => print (CouldNotParse e)) st
  = (ok tt, State (st_medical st) (st_godzilla st)
                  (st_out st ++ [CouldNotParse e])).
Proof.
  unfold try_except, try_body, mbind, M_bind, except_bind, eval.
  destruct (literal_eval s) as [e'|v]; simpl.
  - intros [= ->]. reflexivity.
  - destruct (py_len v) as [e'|n]; simpl; [|discriminate].
    intros [= ->]. reflexivity.
Qed.

Lemma try_applies (s : string) (n : nat) (out : list message) (z : Z) :
  literal_eval s ≫= py_len = ok n ->
  try_except (try_body literal_eval (PyStr s))
             (fun e => print (CouldNotParse e))
             (State (vector_index "vector_index_medical" "embedding_vector"
                                  medical_filters z)
                    (vector_index "vector_index_godzilla" "text_embedding"
                                  godzilla_filters z)
                    out)
  = (ok tt,
     State (vector_index "vector_index_medical" "embedding_vector"
                         medical_filters (Z.of_nat n))
           (vector_index "vector_index_godzilla" "text_embedding"
                         godzilla_filters (Z.of_nat n))
           (out ++ [DimensionDetected n; UpdateNumDimensions n;
                    DefinitionsUpdated])).
Proof.
  unfold try_except, try_body, mbind, M_bind, except_bind, eval.
  destruct (literal_eval s) as [e'|v]; simpl; [discriminate |].
  destruct (py_len v) as [e'|m]; simpl; [discriminate |].
  intros [= ->]. unfold update_medical, update_godzilla, print. simpl.
  by rewrite <- !app_assoc.
Qed.

(** The four ways a run ends. *)
Lemma run_skipped (db : database) :
  detected_dimension literal_eval (fetch_sample db) = None ->
  returned (setup db) = ok baseline.
Proof.
  unfold setup_vector_search_indexes, detected_dimension.
  destruct (fetch_sample db) as [doc|]; [|reflexivity].
  destruct (doc !! "embedding") as [v|] eqn:Hv.
  - rewrite (analyze_key doc v _ Hv).
    destruct (is_str v) eqn:Hs.
    + destruct v; try discriminate.
      destruct (literal_eval s ≫= py_len) as [e|n] eqn:Hp; [|discriminate].
      by rewrite (try_raises s e _ Hp).
    + rewrite (try_not_str v _ Hs). intros _. reflexivity.
  - by rewrite (analyze_no_key doc _ Hv).
Qed.

Lemma run_applied (db : database) (n : nat) :
  detected_dimension literal_eval (fetch_sample db) = Some n ->
  setup db
  = Outcome [DimensionDetected n; UpdateNumDimensions n; DefinitionsUpdated]
            (ok (result_with (Z.of_nat n))).
Proof.
  unfold setup_vector_search_indexes, detected_dimension.
  destruct (fetch_sample db) as [doc|]; [|discriminate].
  destruct (doc !! "embedding") as [v|] eqn:Hv; [|discriminate].
  destruct v; try discriminate.
  destruct (literal_eval s ≫= py_len) as [e|m] eqn:Hp; [discriminate |].
  intros [= ->]. rewrite (analyze_key doc _ _ Hv).
  unfold initial_state.
  rewrite medical_is_vector_index, godzilla_is_vector_index.
  by rewrite (try_applies s n [] 384 Hp).
Qed.

Lemma run_silent (db : database) :
  (fetch_sample db = None \/
   exists doc, fetch_sample db = Some doc /\ doc !! "embedding" = None) ->
  setup db = Outcome [] (ok baseline).
Proof.
  unfold setup_vector_search_indexes.
  intros [-> | (doc & -> & H)]; [reflexivity |].
  by rewrite (analyze_no_key doc _ H).
Qed.

Lemma run_not_str (db : database) (doc : document) (v : pyval) :
  fetch_sample db = Some doc -> doc !! "embedding" = Some v ->
  is_str v = false ->
  setup db = Outcome [FormatNotRecognized] (ok baseline).
Proof.
  unfold setup_vector_search_indexes. intros -> Hv Hs.
  by rewrite (analyze_key doc v _ Hv), (try_not_str v _ Hs).
Qed.

Lemma run_raises (db : database) (doc : document) (s : string) (e : exn) :
  fetch_sample db = Some doc -> doc !! "embedding" = Some (PyStr s) ->
  literal_eval s ≫= py_len = raise e ->
  setup db = Outcome [CouldNotParse e] (ok baseline).
Proof.
  unfold setup_vector_search_indexes. intros -> Hv Hp.
  by rewrite (analyze_key doc _ _ Hv), (try_raises s e _ Hp).
Qed.

(** The [try] statement on a string that yields a dimension, from any
    state: each store either happens or raises into the handler. *)
Lemma try_updates (s : string) (n : nat) (st : state) :
  literal_eval s ≫= py_len = ok n ->
  try_except (try_body literal_eval (PyStr s))
             (fun e => print (CouldNotParse e)) st
  = let out := st_out st ++ [DimensionDetected n; UpdateNumDimensions n] in
    match set_num_dimensions (st_medical st) n with
    | inl e => (ok tt, State (st_medical st) (st_godzilla st)
                             (out ++ [CouldNotParse e]))
    | inr m =>
        match set_num_dimensions (st_godzilla st) n with
        | inl e => (ok tt, State m (st_godzilla st)
                                 (out ++ [CouldNotParse e]))
        | inr g => (ok tt, State m g (out ++ [DefinitionsUpdated]))
        end
    end.
Proof.
  unfold try_except, try_body, mbind, M_bind, except_bind, eval.
  destruct (literal_eval s) as [e'|v]; simpl; [discriminate |].
  destruct (py_len v) as [e'|m]; simpl; [discriminate |].
  intros [= ->]. unfold update_medical, update_godzilla, print. simpl.
  destruct (set_num_dimensions (st_medical st) n) as [e|m]; simpl.
  - by rewrite <- !app_assoc.
  - destruct (set_num_dimensions (st_godzilla st) n) as [e|g]; simpl;
      by rewrite <- !app_assoc.
Qed.

(** A second pass over the same sample leaves both definitions as the
    first pass left them. *)
Lemma analyze_twice (sample : option document) (st : state) :
  let st1 := (analyze sample st).2 in
  let st2 := (analyze sample st1).2 in
  st_medical st2 = st_medical st1 /\ st_godzilla st2 = st_godzilla st1.
Proof.
  cbv zeta. destruct sample as [doc|]; [|done].
  destruct (doc !! "embedding") as [v|] eqn:Hv.
  2: { by rewrite !(analyze_no_key doc _ Hv). }
  rewrite !(analyze_key doc v _ Hv).
  destruct (is_str v) eqn:Hs.
  2: { by rewrite !(try_not_str v _ Hs). }
  destruct v; try discriminate.
  destruct (literal_eval s ≫= py_len) as [e|n] eqn:Hp.
  { by rewrite !(try_raises s e _ Hp). }
  rewrite (try_updates s n st Hp). simpl.
  destruct (set_num_dimensions (st_medical st) n) as [e|m] eqn:Hm; simpl.
  { rewrite (try_updates s n _ Hp). simpl. by rewrite Hm. }
  destruct (set_num_dimensions (st_godzilla st) n) as [e|g] eqn:Hg; simpl.
  - rewrite (try_updates s n _ Hp). simpl.
    by rewrite (set_num_dimensions_again _ _ _ Hm), Hg.
  - rewrite (try_updates s n _ Hp). simpl.
    by rewrite (set_num_dimensions_again _ _ _ Hm),
               (set_num_dimensions_again _ _ _ Hg).
Qed.

(** Every run returns, and what it returns is fixed by one number. *)
Lemma run_returns (db : database) :
  returned (setup db)
  = ok (result_with
          (placeholder_or (detected_dimension literal_eval (fetch_sample db)))).
Proof.
  destruct (detected_dimension literal_eval (fetch_sample db)) as [n|] eqn:H.
  - by rewrite (run_applied db n H).
  - by rewrite (run_skipped db H).
Qed.

(** The query never looks outside [medical_embeddings]. *)
Lemma fetch_sample_other (db : database) (name : string)
    (docs : list document) :
  name <> "medical_embeddings" ->
  fetch_sample (<[name := docs]> db) = fetch_sample db.
Proof.
  intros H. unfold fetch_sample, collection.
  by rewrite lookup_insert_ne.
Qed.

(** What [find_one] returns passes the filter. *)
Lemma find_one_filter (f : document -> bool) (coll : list document)
    (doc : document) :
  find_one f coll = Some doc -> f doc = true.
Proof.
  induction coll as [|d coll IH]; simpl; [discriminate |].
  destruct (f d) eqn:E; [by intros [= <-] | exact IH].
Qed.

End Runs.

(** *** Counting fields *)

Lemma filter_fields_none (p : pyval -> bool) (filters : list string) :
  (forall path, p (filter_field path) = false) ->
  filter (fun f => p f = true) (map filter_field filters) = [].
Proof.
  intros H. induction filters as [|f fs IH]; [done |]. simpl.
  rewrite filter_cons_False; [exact IH |]. by rewrite H.
Qed.

Lemma filter_fields_all (p : pyval -> bool) (filters : list string) :
  (forall path, p (filter_field path) = true) ->
  filter (fun f => p f = true) (map filter_field filters)
  = map filter_field filters.
Proof.
  intros H. induction filters as [|f fs IH]; [done |]. simpl.
  rewrite filter_cons_True by apply H. by rewrite IH.
Qed.

(** *** The reference evaluator and the query on examples *)

Example literal_eval_text_encoding :
  Literal.eval "[0.1, 0.2, 0.3, 0.4]"
  = ok (PyList [PyFloat (1 # 10); PyFloat (2 # 10);
                PyFloat (3 # 10); PyFloat (4 # 10)]).
Proof. reflexivity. Qed.

Example literal_eval_not_a_vector :
  Literal.eval "not-a-vector" = raise ValueError.
Proof. reflexivity. Qed.

Example literal_eval_nested :
  Literal.eval " ( 1 , -2.5, [None, 'x',], (3), (4,), ())"
  = ok (PyTuple [PyInt 1; PyFloat (- 25 # 10); PyList [PyNone; PyStr "x"];
                 PyInt 3; PyTuple [PyInt 4]; PyTuple []]).
Proof. reflexivity. Qed.

Example literal_eval_missing_comma :
  Literal.eval "[1 2]" = raise SyntaxError.
Proof. reflexivity. Qed.

Example literal_eval_int_has_no_len :
  Literal.eval "42" ≫= py_len = raise TypeError.
Proof. reflexivity. Qed.

(** The query skips a record that carries the marker. *)
Example fetch_sample_skips_marker :
  fetch_sample (medical_db [marker_doc; embedding_doc (PyStr "[1, 2]")])
  = Some (embedding_doc (PyStr "[1, 2]")).
Proof. reflexivity. Qed.

(** A four-element text encoding puts 4 in both vector indexes. *)
Example run_on_text_encoding :
  setup_vector_search_indexes Literal.eval
    (medical_db [embedding_doc (PyStr "[0.1, 0.2, 0.3, 0.4]")])
  = Outcome [DimensionDetected 4; UpdateNumDimensions 4; DefinitionsUpdated]
            (ok (result_with 4)).
Proof. reflexivity. Qed.

(** *** The sample and the indexes it corrects *)

(** C1, as stated, fails: with three-dimensional vectors in
    [medical_embeddings] and two-dimensional ones in
    [godzilla_medical_dataset], [godzilla_index] ends with dimension 3, not
    with the 2 of its own collection. *)
Lemma godzilla_index_not_from_own_sample :
  ~ each_index_own_sample Literal.eval.
Proof.
  intros H. specialize (H two_collections_db).
  apply Forall_cons in H as [_ H]. apply Forall_cons in H as [H _].
  vm_compute in H. discriminate.
Qed.

(** C1, amended: one sample is drawn, from [medical_embeddings] only and
    free of the [_metadata] marker; the dimension detected in it, or 384
    when none is, ends up in both vector indexes; the contents of
    [godzilla_medical_dataset] never matter. *)
Theorem one_sample_corrects_both_indexes
    (literal_eval : string -> except pyval) (db : database) :
  let setup := setup_vector_search_indexes literal_eval in
  let sample := sample_of db "medical_embeddings" in
  let dimension := placeholder_or (detected_dimension literal_eval sample) in
  final_dimension (setup db) "medical_embeddings_index" = ok (PyInt dimension)
  /\ final_dimension (setup db) "godzilla_index" = ok (PyInt dimension)
  /\ sample ≫= lookup "_metadata" = None
  /\ forall docs : list document,
       setup (<["godzilla_medical_dataset" := docs]> db) = setup db.
Proof.
  cbv zeta. change (sample_of db "medical_embeddings") with (fetch_sample db).
  unfold final_dimension, entry. rewrite run_returns.
  split; [reflexivity |]. split; [reflexivity |]. split.
  - destruct (fetch_sample db) as [doc|] eqn:E; [|reflexivity]. simpl.
    apply find_one_filter in E. unfold not_exists in E.
    by destruct (doc !! "_metadata").
  - intros docs. unfold setup_vector_search_indexes.
    by rewrite fetch_sample_other.
Qed.

(** *** Strings that do not parse *)

(** C2, as stated, fails: the string "['a', 'b']" is no sequence of numbers,
    yet it is accepted and both vector indexes get dimension 2. *)
Lemma list_of_strings_is_accepted :
  ~ non_numeric_kept_out Literal.eval.
Proof.
  intros H.
  destruct (H (medical_db [embedding_doc (PyStr "['a', 'b']")])
              (embedding_doc (PyStr "['a', 'b']")) "['a', 'b']")
    as (_ & Hm & _).
  - reflexivity.
  - reflexivity.
  - intros v Hv. vm_compute in Hv. by injection Hv as <-.
  - vm_compute in Hm. discriminate.
Qed.

(** C2, amended: when [literal_eval] raises on the stored string, or returns
    a value without a length, the exception is caught and printed with its
    cause, the run returns, and both vector indexes keep 384. *)
Theorem parse_failure_is_soft
    (literal_eval : string -> except pyval)
    (db : database) (doc : document) (s : string) (e : exn) :
  fetch_sample db = Some doc ->
  doc !! "embedding" = Some (PyStr s) ->
  literal_eval s ≫= py_len = raise e ->
  let run := setup_vector_search_indexes literal_eval db in
  printed run = [CouldNotParse e]
  /\ returned run = ok baseline
  /\ final_dimension run "medical_embeddings_index" = ok (PyInt 384)
  /\ final_dimension run "godzilla_index" = ok (PyInt 384).
Proof.
  intros Hs Hv Hp. cbv zeta. rewrite (run_raises _ db doc s e Hs Hv Hp).
  by repeat split.
Qed.

Lemma parse_failure_is_soft_witness :
  let run := setup_vector_search_indexes Literal.eval
               (medical_db [embedding_doc (PyStr "not-a-vector")]) in
  printed run = [CouldNotParse ValueError]
  /\ returned run = ok baseline
  /\ final_dimension run "medical_embeddings_index" = ok (PyInt 384)
  /\ final_dimension run "godzilla_index" = ok (PyInt 384).
Proof.
  apply (parse_failure_is_soft Literal.eval
           (medical_db [embedding_doc (PyStr "not-a-vector")])
           (embedding_doc (PyStr "not-a-vector")) "not-a-vector" ValueError);
    reflexivity.
Defined.

(** *** Samples without the key *)

(** C3, as stated, fails: on a sample that has only an [_id], the run
    raises nothing and prints nothing. *)
Lemma missing_field_is_silent :
  ~ missing_field_reported Literal.eval.
Proof.
  intros H.
  destruct (H (medical_db [ {["_id" := PyInt 1]} ]) {["_id" := PyInt 1]})
    as [[e He] | [e He]].
  - reflexivity.
  - reflexivity.
  - vm_compute in He. discriminate.
  - vm_compute in He. exact He.
Qed.

(** C3, amended: when the sample has no [embedding] key the analysis is
    skipped without a word: nothing is raised, nothing is printed, and the
    definitions are returned as they were built. *)
Theorem missing_field_skips_silently
    (literal_eval : string -> except pyval) (db : database) (doc : document) :
  fetch_sample db = Some doc ->
  doc !! "embedding" = None ->
  setup_vector_search_indexes literal_eval db = Outcome [] (ok baseline).
Proof.
  intros Hs Hk. apply run_silent. right. by exists doc.
Qed.

Lemma missing_field_skips_silently_witness :
  setup_vector_search_indexes Literal.eval
    (medical_db [ {["_id" := PyInt 1]} ])
  = Outcome [] (ok baseline).
Proof.
  apply (missing_field_skips_silently Literal.eval
           (medical_db [ {["_id" := PyInt 1]} ]) {["_id" := PyInt 1]});
    reflexivity.
Defined.

(** C10: the key that is read, [embedding], is the path of neither vector
    index ([embedding_vector], [text_embedding]); a sample without that key,
    whatever it stores elsewhere, yields no dimension and both vector
    indexes keep 384. *)
Theorem declared_paths_are_not_read
    (literal_eval : string -> except pyval) (db : database) (doc : document) :
  fetch_sample db = Some doc ->
  doc !! "embedding" = None ->
  let run := setup_vector_search_indexes literal_eval db in
  vector_path medical_embeddings_index = ok (PyStr "embedding_vector")
  /\ vector_path godzilla_index = ok (PyStr "text_embedding")
  /\ detected_dimension literal_eval (Some doc) = None
  /\ final_dimension run "medical_embeddings_index" = ok (PyInt 384)
  /\ final_dimension run "godzilla_index" = ok (PyInt 384).
Proof.
  intros Hs Hk. cbv zeta.
  assert (Hd : detected_dimension literal_eval (Some doc) = None)
    by (unfold detected_dimension; by rewrite Hk).
  unfold final_dimension, entry. rewrite run_returns, Hs, Hd.
  by repeat split.
Qed.

Lemma declared_paths_are_not_read_witness :
  let run := setup_vector_search_indexes Literal.eval
               (medical_db [declared_path_doc]) in
  vector_path medical_embeddings_index = ok (PyStr "embedding_vector")
  /\ vector_path godzilla_index = ok (PyStr "text_embedding")
  /\ detected_dimension Literal.eval (Some declared_path_doc) = None
  /\ final_dimension run "medical_embeddings_index" = ok (PyInt 384)
  /\ final_dimension run "godzilla_index" = ok (PyInt 384).
Proof.
  apply (declared_paths_are_not_read Literal.eval
           (medical_db [declared_path_doc]) declared_path_doc);
    reflexivity.
Defined.

(** *** Native sequences *)

(** C4, as stated, fails: on the native sequence [[0.1, 0.2, 0.3]] the
    vector indexes keep 384 instead of getting 3. *)
Lemma native_sequence_is_not_measured :
  ~ native_sequence_applied Literal.eval.
Proof.
  intros H.
  destruct (H (medical_db [embedding_doc
                 (PyList [PyFloat (1 # 10); PyFloat (2 # 10); PyFloat (3 # 10)])])
              (embedding_doc
                 (PyList [PyFloat (1 # 10); PyFloat (2 # 10); PyFloat (3 # 10)]))
              [PyFloat (1 # 10); PyFloat (2 # 10); PyFloat (3 # 10)])
    as [Hm _].
  - reflexivity.
  - reflexivity.
  - vm_compute in Hm. discriminate.
Qed.

(** C4, amended: when the stored embedding is a native sequence, no
    dimension is taken from it: the run prints that the format is not
    recognized, and both vector indexes keep 384. *)
Theorem native_sequence_not_recognized
    (literal_eval : string -> except pyval)
    (db : database) (doc : document) (l : list pyval) :
  fetch_sample db = Some doc ->
  doc !! "embedding" = Some (PyList l) ->
  let run := setup_vector_search_indexes literal_eval db in
  printed run = [FormatNotRecognized]
  /\ returned run = ok baseline
  /\ final_dimension run "medical_embeddings_index" = ok (PyInt 384)
  /\ final_dimension run "godzilla_index" = ok (PyInt 384).
Proof.
  intros Hs Hv. cbv zeta.
  rewrite (run_not_str _ db doc (PyList l) Hs Hv eq_refl).
  by repeat split.
Qed.

Lemma native_sequence_not_recognized_witness :
  let run := setup_vector_search_indexes Literal.eval
               (medical_db [embedding_doc
                  (PyList [PyFloat (1 # 10); PyFloat (2 # 10);
                           PyFloat (3 # 10)])]) in
  printed run = [FormatNotRecognized]
  /\ returned run = ok baseline
  /\ final_dimension run "medical_embeddings_index" = ok (PyInt 384)
  /\ final_dimension run "godzilla_index" = ok (PyInt 384).
Proof.
  apply (native_sequence_not_recognized Literal.eval
           (medical_db [embedding_doc
              (PyList [PyFloat (1 # 10); PyFloat (2 # 10); PyFloat (3 # 10)])])
           (embedding_doc
              (PyList [PyFloat (1 # 10); PyFloat (2 # 10); PyFloat (3 # 10)]))
           [PyFloat (1 # 10); PyFloat (2 # 10); PyFloat (3 # 10)]);
    reflexivity.
Defined.

(** *** Empty values *)

(** C5, as stated, fails: the string "[]" evaluates to a list of length
    zero, and dimension 0 is stored in the vector indexes. *)
Lemma empty_list_gives_dimension_zero :
  ~ empty_embedding_rejected Literal.eval.
Proof.
  intros H.
  destruct (H (medical_db [embedding_doc (PyStr "[]")])
              (embedding_doc (PyStr "[]")) "[]" (PyList []))
    as (_ & Hm & _); try reflexivity.
  apply Hm. reflexivity.
Qed.

(** C5, amended: the dimension is a length, so it may be zero: when the
    stored string evaluates to a value of length zero, nothing is raised or
    reported as a failure and dimension 0 is stored in both vector
    indexes. *)
Theorem empty_value_gives_dimension_zero
    (literal_eval : string -> except pyval)
    (db : database) (doc : document) (s : string) (v : pyval) :
  fetch_sample db = Some doc ->
  doc !! "embedding" = Some (PyStr s) ->
  literal_eval s = ok v ->
  py_len v = ok 0%nat ->
  let run := setup_vector_search_indexes literal_eval db in
  printed run
  = [DimensionDetected 0; UpdateNumDimensions 0; DefinitionsUpdated]
  /\ final_dimension run "medical_embeddings_index" = ok (PyInt 0)
  /\ final_dimension run "godzilla_index" = ok (PyInt 0).
Proof.
  intros Hs Hv He Hl. cbv zeta.
  rewrite (run_applied literal_eval db 0).
  - by repeat split.
  - unfold detected_dimension. rewrite Hs, Hv, He. simpl.
    unfold mbind, except_bind, ok. by rewrite Hl.
Qed.

Lemma empty_value_gives_dimension_zero_witness :
  let run := setup_vector_search_indexes Literal.eval
               (medical_db [embedding_doc (PyStr "[]")]) in
  printed run
  = [DimensionDetected 0; UpdateNumDimensions 0; DefinitionsUpdated]
  /\ final_dimension run "medical_embeddings_index" = ok (PyInt 0)
  /\ final_dimension run "godzilla_index" = ok (PyInt 0).
Proof.
  apply (empty_value_gives_dimension_zero Literal.eval
           (medical_db [embedding_doc (PyStr "[]")])
           (embedding_doc (PyStr "[]")) "[]" (PyList []));
    reflexivity.
Defined.

(** *** The returned dict *)

(** C6, as stated, fails: the run on an empty database, where 384 was never
    checked, and the run on a sample of 384 numbers, where 384 was
    detected, return the same dict. *)
Lemma unchecked_placeholder_looks_detected :
  ~ placeholder_observable Literal.eval.
Proof.
  intros [_ H].
  apply (H ∅ (medical_db [embedding_doc (PyStr (zeros_literal 384))])).
  - reflexivity.
  - vm_compute. reflexivity.
  - vm_compute. reflexivity.
Qed.

(** C6, amended: every run returns a dict with exactly the three keys, in
    this order; the dict holds the three definitions and nothing else, the
    two vector indexes differing from the literals in the dimension only;
    with 384 left in place it is the dict of the literals, so the dict does
    not tell whether the dimension was checked. *)
Theorem result_has_three_definitions_only
    (literal_eval : string -> except pyval) (db : database) :
  let run := setup_vector_search_indexes literal_eval db in
  let dimension :=
    placeholder_or (detected_dimension literal_eval (fetch_sample db)) in
  keys_of (returned run)
  = ["medical_embeddings_index"; "godzilla_index"; "drug_search_index"]
  /\ returned run = ok (result_with dimension)
  /\ result_with 384 = baseline.
Proof.
  cbv zeta. rewrite run_returns. by repeat split.
Qed.

(** *** Running twice *)

(** C7: a second pass over the same sample, started from the definitions
    the first pass left, ends with the same definitions, hence the same
    [numDimensions]; and storing a dimension that is already there returns
    the definition unchanged. *)
Theorem reconcile_twice_is_reconcile_once
    (literal_eval : string -> except pyval)
    (sample : option document) (st : state) :
  let st1 := (analyze literal_eval sample st).2 in
  let st2 := (analyze literal_eval sample st1).2 in
  (st_medical st2 = st_medical st1 /\ st_godzilla st2 = st_godzilla st1)
  /\ (num_dimensions (st_medical st2) = num_dimensions (st_medical st1)
      /\ num_dimensions (st_godzilla st2) = num_dimensions (st_godzilla st1))
  /\ forall (index : pyval) (n : nat),
       (index' ← set_num_dimensions index n; set_num_dimensions index' n)
       = set_num_dimensions index n.
Proof.
  cbv zeta. destruct (analyze_twice literal_eval sample st) as [Hm Hg].
  split; [by split |]. split; [by rewrite Hm, Hg |].
  intros index n.
  destruct (set_num_dimensions index n) as [e|index'] eqn:H; [done |].
  simpl. exact (set_num_dimensions_again index index' n H).
Qed.

(** *** The shape of the definitions *)

(** C8: each vector index, as written and as returned by any run, has as
    its fields one vector field with the cosine metric followed by one
    filter field per filter path, and nothing else. *)
Theorem vector_index_has_one_vector_field
    (literal_eval : string -> except pyval) (db : database) :
  let run := setup_vector_search_indexes literal_eval db in
  (fields_of medical_embeddings_index
   = ok (PyList (vector_field "embedding_vector" 384
                   :: map filter_field medical_filters))
   /\ fields_of godzilla_index
      = ok (PyList (vector_field "text_embedding" 384
                      :: map filter_field godzilla_filters)))
  /\ (exists n,
        (entry run "medical_embeddings_index" ≫= fields_of)
        = ok (PyList (vector_field "embedding_vector" n
                        :: map filter_field medical_filters))
        /\ (entry run "godzilla_index" ≫= fields_of)
           = ok (PyList (vector_field "text_embedding" n
                           :: map filter_field godzilla_filters)))
  /\ forall (path : string) (n : Z) (filters : list string),
       let fields := ok (PyList (vector_field path n
                                   :: map filter_field filters)) in
       count_fields (has_type "vector") fields = 1%nat
       /\ count_fields (fun f => has_type "vector" f && is_cosine f) fields
          = 1%nat
       /\ count_fields (has_type "filter") fields = length filters
       /\ count_fields (fun _ => true) fields = S (length filters).
Proof.
  cbv zeta. split; [by split |]. split.
  - exists (placeholder_or (detected_dimension literal_eval (fetch_sample db))).
    unfold entry. rewrite run_returns. by split.
  - intros path n filters. unfold count_fields, ok. cbv beta iota.
    rewrite (filter_cons_True (fun f => has_type "vector" f = true)) by done.
    rewrite (filter_cons_True
               (fun f => has_type "vector" f && is_cosine f = true)) by done.
    rewrite (filter_cons_False (fun f => has_type "filter" f = true)) by done.
    rewrite (filter_cons_True (fun _ => true = true)) by done.
    rewrite (filter_fields_none (has_type "vector")) by done.
    rewrite (filter_fields_none (fun f => has_type "vector" f && is_cosine f))
      by done.
    rewrite (filter_fields_all (has_type "filter")) by done.
    rewrite (filter_fields_all (fun _ => true)) by done.
    simpl. by rewrite !length_map.
Qed.

(** C9: the text index has dynamic mapping off and one field entry per key
    of the analyzer table, in the order of the table; a key with an
    analyzer gets a string field with that analyzer, a key without one gets
    a plain string field that has no [analyzer] entry; every run returns it
    as written. *)
Theorem text_index_has_one_field_per_key
    (literal_eval : string -> except pyval) (db : database) :
  let mappings :=
    definition ← getitem_key drug_search_index "definition";
    getitem_key definition "mappings" in
  let fields := mappings ≫= fun m => getitem_key m "fields" in
  (mappings ≫= fun m => getitem_key m "dynamic") = ok (PyBool false)
  /\ keys_of fields = map fst drug_analyzers
  /\ keys_of fields
     = ["drug_name"; "generic_name"; "indication"; "age_group"; "route"]
  /\ NoDup (keys_of fields)
  /\ Forall (fun ka =>
               (fields ≫= fun f => getitem_key f (fst ka))
               = ok (text_field (snd ka)))
            drug_analyzers
  /\ text_field None = PyDict [("type", PyStr "string")]
  /\ getitem_key (text_field None) "analyzer" = raise (KeyError (PyStr "analyzer"))
  /\ drug_search_index = text_index "drug_search_index" drug_analyzers
  /\ entry (setup_vector_search_indexes literal_eval db) "drug_search_index"
     = ok drug_search_index.
Proof.
  cbv zeta. repeat split; try reflexivity.
  - apply (bool_decide_unpack _). by vm_compute.
  - repeat constructor.
  - unfold entry. by rewrite run_returns.
Qed.

(** ** Further properties of the code *)

(** *** The query of line 175 *)

Lemma not_exists_marked (doc : document) :
  not_exists "_metadata" doc = false <-> marked doc.
Proof.
  unfold not_exists, marked. destruct (doc !! "_metadata") as [v|].
  - split; [by eexists | done].
  - split; [done | by intros [? ?]].
Qed.

Lemma find_one_none (f : document -> bool) (coll : list document) :
  find_one f coll = None <-> Forall (fun doc => f doc = false) coll.
Proof.
  induction coll as [|d coll IH]; simpl.
  - split; [constructor | done].
  - destruct (f d) eqn:E.
    + split; [done |]. intros H. apply Forall_cons in H as [H _]. congruence.
    + rewrite IH. split; [by constructor |].
      intros H. by apply Forall_cons in H as [_ H].
Qed.

Lemma find_one_some (f : document -> bool) (coll : list document)
    (doc : document) :
  find_one f coll = Some doc <->
  exists before rest,
    coll = before ++ doc :: rest
    /\ Forall (fun d => f d = false) before /\ f doc = true.
Proof.
  induction coll as [|d coll IH]; simpl.
  - split; [done |]. intros (before & rest & H & _). by destruct before.
  - destruct (f d) eqn:E.
    + split.
      * intros [= ->]. exists [], coll. by repeat split.
      * intros (before & rest & H & Hb & Hd).
        destruct before as [|b before]; simpl in H.
        -- by injection H as ->.
        -- injection H as -> _. apply Forall_cons in Hb as [Hb _]. congruence.
    + rewrite IH. split.
      * intros (before & rest & -> & Hb & Hd).
        exists (d :: before), rest. repeat split; [|done]. by constructor.
      * intros (before & rest & H & Hb & Hd).
        destruct before as [|b before]; simpl in H.
        -- injection H as -> _. congruence.
        -- injection H as -> ->. apply Forall_cons in Hb as [_ Hb].
           by exists before, rest.
Qed.

(** X1: no sample is found exactly when every record of
    [medical_embeddings] carries the [_metadata] marker, an empty or absent
    collection included; the run is then silent and returns the definitions
    as written. *)
Theorem no_sample_iff_all_marked
    (literal_eval : string -> except pyval) (db : database) :
  (fetch_sample db = None
   <-> Forall marked (collection db "medical_embeddings"))
  /\ (db !! "medical_embeddings" = None \/
      db !! "medical_embeddings" = Some [] \/
      Forall marked (collection db "medical_embeddings") <->
      setup_vector_search_indexes literal_eval db = Outcome [] (ok baseline)
      /\ fetch_sample db = None).
Proof.
  assert (Hiff : fetch_sample db = None
                 <-> Forall marked (collection db "medical_embeddings")).
  { unfold fetch_sample. rewrite find_one_none.
    split; intros H; eapply Forall_impl; try exact H;
      intros doc; apply not_exists_marked. }
  split; [exact Hiff |]. split.
  - intros H.
    assert (Hall : Forall marked (collection db "medical_embeddings")).
    { destruct H as [H | [H | H]]; [| |exact H];
        unfold collection; rewrite H; constructor. }
    apply Hiff in Hall. split; [|exact Hall].
    apply run_silent. by left.
  - intros [_ H]. right. right. by apply Hiff.
Qed.

(** X2: the sample is the first record of [medical_embeddings] without the
    marker: every record before it is marked, and it is not. *)
Theorem sample_is_first_unmarked (db : database) (doc : document) :
  fetch_sample db = Some doc <->
  exists before rest,
    collection db "medical_embeddings" = before ++ doc :: rest
    /\ Forall marked before
    /\ doc !! "_metadata" = None.
Proof.
  unfold fetch_sample. rewrite find_one_some. split.
  - intros (before & rest & H & Hb & Hd). exists before, rest.
    repeat split; [done | |].
    + eapply Forall_impl; [exact Hb |]. intros d. apply not_exists_marked.
    + unfold not_exists in Hd. by destruct (doc !! "_metadata").
  - intros (before & rest & H & Hb & Hd). exists before, rest.
    repeat split; [done | |].
    + eapply Forall_impl; [exact Hb |]. intros d. apply not_exists_marked.
    + unfold not_exists. by rewrite Hd.
Qed.

(** X3: only the first unmarked record is looked at: the run on any
    database equals the run on a database that holds that record alone, so
    later records, of whatever dimension, are never compared with it. *)
Theorem only_first_unmarked_record_matters
    (literal_eval : string -> except pyval) (db : database) (doc : document) :
  fetch_sample db = Some doc ->
  setup_vector_search_indexes literal_eval db
  = setup_vector_search_indexes literal_eval (medical_db [doc]).
Proof.
  intros H. unfold setup_vector_search_indexes. rewrite H.
  assert (Hd : not_exists "_metadata" doc = true)
    by (unfold fetch_sample in H; by apply find_one_filter in H).
  assert (H1 : fetch_sample (medical_db [doc]) = Some doc).
  { unfold fetch_sample, collection, medical_db.
    rewrite lookup_singleton_eq. simpl. by rewrite Hd. }
  by rewrite H1.
Qed.

Lemma only_first_unmarked_record_matters_witness :
  setup_vector_search_indexes Literal.eval mixed_db
  = setup_vector_search_indexes Literal.eval
      (medical_db [embedding_doc (PyStr "[1, 2]")]).
Proof.
  apply (only_first_unmarked_record_matters Literal.eval mixed_db
           (embedding_doc (PyStr "[1, 2]"))).
  reflexivity.
Defined.

(** *** The ways a run can end *)

(** X4: the analysis prints one of four things: nothing, the format
    complaint, one caught exception, or the three lines of a successful
    update; the update is announced exactly when a dimension was detected,
    and without that announcement the definitions are returned as
    written. *)
Theorem run_ends_in_one_of_four_ways
    (literal_eval : string -> except pyval) (db : database) :
  let run := setup_vector_search_indexes literal_eval db in
  (printed run = []
   \/ printed run = [FormatNotRecognized]
   \/ (exists e, printed run = [CouldNotParse e])
   \/ (exists n, printed run = [DimensionDetected n; UpdateNumDimensions n;
                                DefinitionsUpdated]
                 /\ returned run = ok (result_with (Z.of_nat n))))
  /\ (In DefinitionsUpdated (printed run)
      <-> is_Some (detected_dimension literal_eval (fetch_sample db)))
  /\ (In DefinitionsUpdated (printed run) \/ returned run = ok baseline).
Proof.
  cbv zeta.
  destruct (detected_dimension literal_eval (fetch_sample db)) as [n|] eqn:Hd.
  - rewrite (run_applied literal_eval db n Hd). simpl. split; [|split].
    + right. right. right. by exists n.
    + split; [by eexists | intros _; auto].
    + left. auto.
  - assert (Hr := run_skipped literal_eval db Hd).
    assert (Hp : printed (setup_vector_search_indexes literal_eval db) = []
                 \/ printed (setup_vector_search_indexes literal_eval db)
                    = [FormatNotRecognized]
                 \/ exists e, printed (setup_vector_search_indexes
                                         literal_eval db) = [CouldNotParse e]).
    { unfold detected_dimension in Hd.
      destruct (fetch_sample db) as [doc|] eqn:Hs.
      2: { left. rewrite (run_silent literal_eval db); [done | by left]. }
      destruct (doc !! "embedding") as [v|] eqn:Hv.
      2: { left. rewrite (run_silent literal_eval db); [done |].
           right. by exists doc. }
      destruct (is_str v) eqn:Hstr.
      - destruct v; try discriminate.
        destruct (literal_eval s ≫= py_len) as [e|n] eqn:Hp; [|discriminate].
        right. right. exists e.
        by rewrite (run_raises literal_eval db doc s e Hs Hv Hp).
      - right. left.
        by rewrite (run_not_str literal_eval db doc v Hs Hv Hstr). }
    split; [|split].
    + destruct Hp as [Hp | [Hp | [e Hp]]]; [by left | by right; left |].
      right. right. left. by exists e.
    + split; [|by intros [? ?]].
      destruct Hp as [Hp | [Hp | [e Hp]]]; rewrite Hp; simpl;
        intros H; repeat destruct H as [H | H]; try discriminate; done.
    + by right.
Qed.

(** X5: whatever the stored string evaluates to, if it has a length then
    that length becomes the dimension of both vector indexes; the elements
    are never looked at. *)
Theorem any_sized_literal_is_accepted
    (literal_eval : string -> except pyval)
    (db : database) (doc : document) (s : string) (v : pyval) (n : nat) :
  fetch_sample db = Some doc ->
  doc !! "embedding" = Some (PyStr s) ->
  literal_eval s = ok v ->
  py_len v = ok n ->
  setup_vector_search_indexes literal_eval db
  = Outcome [DimensionDetected n; UpdateNumDimensions n; DefinitionsUpdated]
            (ok (result_with (Z.of_nat n))).
Proof.
  intros Hs Hv He Hl. apply run_applied.
  unfold detected_dimension. rewrite Hs, Hv, He. simpl.
  unfold mbind, except_bind, ok. by rewrite Hl.
Qed.

Lemma any_sized_literal_is_accepted_witness :
  setup_vector_search_indexes Literal.eval
    (medical_db [embedding_doc (PyStr "'ab'")])
  = Outcome [DimensionDetected 2; UpdateNumDimensions 2; DefinitionsUpdated]
            (ok (result_with 2)).
Proof.
  apply (any_sized_literal_is_accepted Literal.eval
           (medical_db [embedding_doc (PyStr "'ab'")])
           (embedding_doc (PyStr "'ab'")) "'ab'" (PyStr "ab") 2);
    reflexivity.
Defined.

(** *** The store of lines 191-192 on any definition *)



(** The update as a closed form, from what the loads find. *)
Lemma set_num_dimensions_form (d dd d0 : list (string * pyval))
    (fields : pyval) (n : nat) :
  Dict.get "definition" d = Some (PyDict dd) ->
  Dict.get "fields" dd = Some fields ->
  getitem_idx fields 0 = ok (PyDict d0) ->
  set_num_dimensions (PyDict d) n
  = ok (PyDict
          (Dict.set "definition"
             (PyDict
                (Dict.set "fields"
                   (with_idx fields 0
                      (PyDict (Dict.set "numDimensions"
                                 (PyInt (Z.of_nat n)) d0)))
                   dd))
             d)).
Proof.
  intros Hd Hdd Hf. unfold set_num_dimensions, mbind, except_bind. simpl.
  rewrite Hd. simpl. rewrite Hdd. simpl. by rewrite Hf.
Qed.



(** X6: after the store succeeds, reading [numDimensions] along the same
    path gives the stored dimension. *)
Theorem stored_dimension_reads_back (index index' : pyval) (n : nat) :
  set_num_dimensions index n = ok index' ->
  num_dimensions index' = ok (PyInt (Z.of_nat n)).
Proof. exact (num_dimensions_set index index' n). Qed.

Lemma stored_dimension_reads_back_witness :
  num_dimensions
    (vector_index "vector_index_godzilla" "text_embedding" godzilla_filters 768)
  = ok (PyInt (Z.of_nat 768)).
Proof.
  apply (stored_dimension_reads_back godzilla_index
           (vector_index "vector_index_godzilla" "text_embedding"
                         godzilla_filters 768) 768).
  reflexivity.
Defined.

(** X7: the last store wins: storing [m] after [n] leaves what storing [m]
    alone leaves. *)
Theorem last_stored_dimension_wins (index index1 : pyval) (n m : nat) :
  set_num_dimensions index n = ok index1 ->
  set_num_dimensions index1 m = set_num_dimensions index m.
Proof.
  intros H. apply set_num_dimensions_inv in H
    as (d & dd & fields & d0 & -> & Hd & Hdd & Hf & ->).
  rewrite (set_num_dimensions_form d dd d0 fields m Hd Hdd Hf).
  set (f1 := PyDict (Dict.set "numDimensions" (PyInt (Z.of_nat n)) d0)).
  destruct (getitem_with_idx fields f1 f1 d0 Hf) as [Hget _].
  rewrite (set_num_dimensions_form _ _ _ _ m
             (Dict_get_set "definition" _ d)
             (Dict_get_set "fields" _ dd) Hget).
  destruct (getitem_with_idx fields
              (PyDict (Dict.set "numDimensions" (PyInt (Z.of_nat m)) d0))
              f1 d0 Hf) as [_ Hw].
  by rewrite !Dict_set_set, Hw.
Qed.

Lemma last_stored_dimension_wins_witness :
  set_num_dimensions
    (vector_index "vector_index_medical" "embedding_vector" medical_filters 768)
    1536
  = set_num_dimensions medical_embeddings_index 1536.
Proof.
  apply (last_stored_dimension_wins medical_embeddings_index
           (vector_index "vector_index_medical" "embedding_vector"
                         medical_filters 768) 768 1536).
  reflexivity.
Defined.



(** X9: the store succeeds exactly when the first entry of the [fields]
    list is a dict; neither its [type] nor the presence of [numDimensions]
    is asked for, and the dimension plays no part. *)
Theorem store_succeeds_iff_first_field_is_dict (index : pyval) (n : nat) :
  (exists index', set_num_dimensions index n = ok index')
  <-> (exists d0,
         (fields_of index ≫= fun f => getitem_idx f 0) = ok (PyDict d0)).
Proof.
  split.
  - intros [index' H]. apply set_num_dimensions_inv in H
      as (d & dd & fields & d0 & -> & Hd & Hdd & Hf & _).
    exists d0. unfold fields_of, mbind, except_bind. simpl. rewrite Hd. simpl.
    by rewrite Hdd.
  - intros [d0 H]. unfold fields_of, mbind, except_bind in H.
    destruct index as [| | | | | |? |d]; simpl in H; try discriminate.
    destruct (Dict.get "definition" d) as [def|] eqn:Hd; simpl in H;
      [|discriminate].
    destruct def as [| | | | | |? |dd]; simpl in H; try discriminate.
    destruct (Dict.get "fields" dd) as [fields|] eqn:Hdd; simpl in H;
      [|discriminate].
    eexists. exact (set_num_dimensions_form d dd d0 fields n Hd Hdd H).
Qed.

(** The store goes to position 0 even when a filter field stands there. *)
Example store_into_filter_first_index :
  set_num_dimensions filter_first_index 768
  = ok (PyDict
          [("name", PyStr "vector_index_medical");
           ("type", PyStr "vectorSearch");
           ("definition",
             PyDict [("fields",
                       PyList [PyDict [("type", PyStr "filter");
                                       ("path", PyStr "medical_specialty");
                                       ("numDimensions", PyInt 768)];
                               vector_field "embedding_vector" 384])])]).
Proof. reflexivity. Qed.

(** *** The analysis on any pair of definitions *)




(** *** The console of the script *)

Lemma dumped_said (l : list message) : dumped (map Said l) = [].
Proof. induction l as [|m l IH]; [done | exact IH]. Qed.

Lemma said_said (l : list message) : said (map Said l) = l.
Proof.
  induction l as [|m l IH]; [done |].
  change (said (map Said (m :: l))) with (m :: said (map Said l)).
  by rewrite IH.
Qed.

Lemma create_indexes_flag_In (argv : list string) :
  create_indexes_flag argv = true <-> In "--create-indexes" argv.
Proof.
  unfold create_indexes_flag. rewrite existsb_exists. split.
  - intros (x & Hx & E). apply String.eqb_eq in E. by subst x.
  - intros H. exists "--create-indexes". split; [done |].
    apply String.eqb_refl.
Qed.

(** What any run of the script dumps and says. *)
Lemma script_json_and_messages
    (literal_eval : string -> except pyval)
    (argv : list string) (db : database) :
  dumped (main literal_eval argv db)
  = [medical_embeddings_index; godzilla_index; drug_search_index]
  /\ said (main literal_eval argv db)
     = printed (setup_vector_search_indexes literal_eval db).
Proof.
  unfold main, console_of.
  destruct (create_indexes_flag argv); unfold dumped, said; simpl;
    fold (dumped (map Said (printed (setup_vector_search_indexes
                                       literal_eval db))));
    fold (said (map Said (printed (setup_vector_search_indexes
                                     literal_eval db))));
    by rewrite dumped_said, said_said.
Qed.

Lemma said_In (out : list console) (m : message) :
  In m (said out) -> In (Said m) out.
Proof.
  induction out as [|c out IH]; [done |].
  destruct c as [v|m'| |];
    [ change (said (Json v :: out)) with (said out)
    | change (said (Said m' :: out)) with (m' :: said out)
    | change (said (NotImplemented :: out)) with (said out)
    | change (said (CreateManually :: out)) with (said out) ].
  - intros Hm. right. by apply IH.
  - intros [-> | Hm]; [by left | right; by apply IH].
  - intros Hm. right. by apply IH.
  - intros Hm. right. by apply IH.
Qed.

(** X11: whatever the arguments and the database, the script prints as
    JSON the three definitions as written, all with dimension 384, and then
    the messages of the analysis; [--create-indexes], at any position,
    adds the two lines of its warning and changes nothing else. *)
Theorem script_prints_definitions_as_written
    (literal_eval : string -> except pyval)
    (argv : list string) (db : database) :
  let out := main literal_eval argv db in
  dumped out = [medical_embeddings_index; godzilla_index; drug_search_index]
  /\ said out = printed (setup_vector_search_indexes literal_eval db)
  /\ (In NotImplemented out <-> In "--create-indexes" argv)
  /\ (In CreateManually out <-> In "--create-indexes" argv)
  /\ List.filter (fun c => negb (is_warning c)) out = main literal_eval [] db.
Proof.
  cbv zeta.
  destruct (script_json_and_messages literal_eval argv db) as [Hj Hs].
  split; [exact Hj |]. split; [exact Hs |].
  unfold main, console_of.
  set (msgs := printed (setup_vector_search_indexes literal_eval db)).
  assert (Hin : forall c, is_warning c = true -> ~ In c (map Said msgs)).
  { intros c Hc Hi. apply in_map_iff in Hi as (m & <- & _). discriminate. }
  assert (Hf : List.filter (fun c => negb (is_warning c)) (map Said msgs)
               = map Said msgs).
  { clear Hin. induction msgs as [|m l IH]; [done |]. simpl. by rewrite IH. }
  destruct (create_indexes_flag argv) eqn:E.
  - apply create_indexes_flag_In in E. simpl. rewrite Hf.
    repeat split; auto.
  - assert (Hn : ~ In "--create-indexes" argv).
    { intros H. apply create_indexes_flag_In in H. congruence. }
    simpl. rewrite Hf. repeat split; try done.
    + intros [H | [H | [H | H]]]; try discriminate.
      exfalso. by apply (Hin NotImplemented).
    + intros [H | [H | [H | H]]]; try discriminate.
      exfalso. by apply (Hin CreateManually).
Qed.

(** X12: when a dimension other than 384 is detected, the script tells it
    in a message, but the corrected definitions it builds are in none of
    the JSON it prints. *)
Theorem corrected_definitions_are_never_printed
    (literal_eval : string -> except pyval)
    (argv : list string) (db : database) (n : nat) :
  detected_dimension literal_eval (fetch_sample db) = Some n ->
  n <> 384%nat ->
  let run := setup_vector_search_indexes literal_eval db in
  let out := main literal_eval argv db in
  In (Said (UpdateNumDimensions n)) out
  /\ (forall key index,
        In key ["medical_embeddings_index"; "godzilla_index"] ->
        entry run key = ok index ->
        ~ In index (dumped out)).
Proof.
  intros Hd Hn. cbv zeta.
  destruct (script_json_and_messages literal_eval argv db) as [Hj Hs].
  rewrite Hj. split.
  - apply (said_In _ _). rewrite Hs, (run_applied literal_eval db n Hd).
    simpl. auto.
  - intros key index Hk He. unfold entry in He.
    rewrite (run_applied literal_eval db n Hd) in He.
    assert (Hz : Z.of_nat n <> 384%Z) by lia.
    destruct Hk as [<- | [<- | []]]; simpl in He; injection He as <-;
      intros [H | [H | [H | []]]]; try discriminate;
      injection H as H; done.
Qed.

Lemma corrected_definitions_are_never_printed_witness :
  let db := medical_db [embedding_doc (PyStr "[0.1, 0.2, 0.3]")] in
  let run := setup_vector_search_indexes Literal.eval db in
  let out := main Literal.eval ["setup_vector_search.py"] db in
  In (Said (UpdateNumDimensions 3)) out
  /\ (forall key index,
        In key ["medical_embeddings_index"; "godzilla_index"] ->
        entry run key = ok index ->
        ~ In index (dumped out)).
Proof.
  apply (corrected_definitions_are_never_printed Literal.eval
           ["setup_vector_search.py"]
           (medical_db [embedding_doc (PyStr "[0.1, 0.2, 0.3]")]) 3);
    [reflexivity | lia].
Defined.
